(** * Fetch-with-fallback of Treasury securities data

    A shallow embedding of [fetch_treasury_securities.py]: the two fetchers,
    the assembler that falls back from the first to the second, and the
    top-level driver that writes the CSV file.

    The script is effectful (console, network, file system) and fallible
    (exceptions), so it is embedded in a state-and-exception monad.  What the
    script delegates to the Python runtime and to the [requests] and [pandas]
    libraries is either written out (dictionary lookup, the [in] operator,
    the shape of the table built from a list of dictionaries, the CSV row
    writer) or kept as a field of the [runtime] record, over which every
    statement is universally quantified: so it is for what depends on the
    version of a library or of the interpreter.

    Taken for granted: [print] and the writing of the file do not raise, the
    line end is the one of a POSIX system, and no signal interrupts the run
    (every exception met is an instance of [Exception]). *)

From Stdlib Require Import ZArith String Ascii List DecimalString.
From stdpp Require Import base decidable option list strings gmap.

#[local] Set Warnings "-register-all".

Open Scope string_scope.
Open Scope Z_scope.
Open Scope list_scope.

(** ** Python values *)

Module Py.

(** What [json.loads] can return.  A float is kept as its IEEE-754 bit
    pattern: the script never computes with one.  A dictionary is its list
    of items in insertion order; [json.loads] builds it with distinct keys. *)
Inductive pyval : Type :=
| PyNone
| PyBool (b : bool)
| PyInt (n : Z)
| PyFloat (bits : Z)
| PyStr (s : string)
| PyList (items : list pyval)
| PyDict (entries : list (string * pyval)).

Definition dict : Type := list (string * pyval).

(** Exceptions raised inside a library ([requests], [json], [pandas]):
    class name and message. *)
Inductive lib_error : Type :=
| LibError (class_name message : string).

(** Every exception the script can meet is an instance of Python's
    [Exception].  The ones the script raises itself, [raise Exception(msg)],
    are the constructor [Exception]; the others are instances of subclasses. *)
Inductive exn : Type :=
| Exception (msg : string)
| TypeError (v : pyval)
| AttributeError (v : pyval)
| KeyError (k : string)
| LibraryError (e : lib_error).

Inductive result (A : Type) : Type :=
| Ok (a : A)
| Raise (e : exn).

Arguments Ok {A} a.
Arguments Raise {A} e.

(** [str(n)] for an [int]. *)
Definition str_int (n : Z) : string := NilZero.string_of_int (Z.to_int n).

(** [s * n] for a [str]. *)
Fixpoint str_repeat (s : string) (n : nat) : string :=
  match n with
  | O => EmptyString
  | S n' => s +:+ str_repeat s n'
  end.

Definition LF : string := String "010"%char EmptyString.

(** [d.keys()] and the lookup behind [k in d], [d[k]] and [d.get(k, v)]. *)
Definition dict_keys (d : dict) : list string := fst <$> d.

Fixpoint dict_lookup (d : dict) (k : string) : option pyval :=
  match d with
  | [] => None
  | (k', v) :: d' => if String.eqb k' k then Some v else dict_lookup d' k
  end.

(** [needle in hay] for two [str]: substring test. *)
Fixpoint str_contains (needle hay : string) : bool :=
  String.prefix needle hay ||
  match hay with
  | EmptyString => false
  | String _ hay' => str_contains needle hay'
  end.

(** [k in v], for a [str] k: key membership on a dictionary, element
    membership on a list, substring on a string, [TypeError] elsewhere. *)
Definition py_in (k : string) (v : pyval) : result bool :=
  match v with
  | PyDict d => Ok (bool_decide (is_Some (dict_lookup d k)))
  | PyList items =>
      Ok (existsb (fun x => match x with PyStr s => String.eqb k s | _ => false end) items)
  | PyStr s => Ok (str_contains k s)
  | _ => Raise (TypeError v)
  end.

(** [v[k]], for a [str] k: only a dictionary can be indexed by a string,
    and the script only does so after [k in v]. *)
Definition py_getitem (v : pyval) (k : string) : result pyval :=
  match v with
  | PyDict d =>
      match dict_lookup d k with
      | Some x => Ok x
      | None => Raise (KeyError k)
      end
  | _ => Raise (TypeError v)
  end.

(** [v.get(k, default)]: a method of dictionaries only. *)
Definition py_get (v : pyval) (k : string) (default : pyval) : result pyval :=
  match v with
  | PyDict d =>
      match dict_lookup d k with
      | Some x => Ok x
      | None => Ok default
      end
  | _ => Raise (AttributeError v)
  end.

End Py.

Export Py.

(** ** The table type of pandas *)

Module Pandas.

(** A cell holds a value, or nothing (NaN). *)
Definition cell : Type := option pyval.

Record DataFrame : Type := mkDataFrame {
  columns : list string;
  rows : list (list cell)
}.


(** [len(df)] *)
Definition len (df : DataFrame) : Z := Z.of_nat (length (rows df)).

(** Columns of a table built from records: every key, in the order in
    which it is first met. *)
Definition add_keys (cols : list string) (keys : list string) : list string :=
  fold_left (fun acc k => if bool_decide (k ∈ acc) then acc else acc ++ [k]) keys cols.

Definition union_keys (ds : list dict) : list string :=
  fold_left (fun acc d => add_keys acc (dict_keys d)) ds [].

(** The same order said in words: a sequence of keys with every repetition
    of an earlier key struck out. *)
Fixpoint first_occurrences (keys : list string) : list string :=
  match keys with
  | [] => []
  | k :: keys' => k :: filter (fun k' => k' ≠ k) (first_occurrences keys')
  end.

(** The items of a list when every one of them is a dictionary. *)
Fixpoint as_records (items : list pyval) : option (list dict) :=
  match items with
  | [] => Some []
  | PyDict d :: items' =>
      match as_records items' with
      | Some ds => Some (d :: ds)
      | None => None
      end
  | _ :: _ => None
  end.

(** The writer of Python's [csv] module as pandas configures it: comma
    delimiter, double-quote quote character, minimal quoting, quote
    characters doubled, line feed at the end of a row.  A field is quoted
    when it holds a delimiter, a quote character or a character of the line
    end; whether a carriage return counts as well depends on the version of
    the interpreter, hence the flag [cr].  A row made of one empty field is
    written as a pair of quotes. *)
Definition dquote : ascii := "034"%char.

Definition is_special (cr : bool) (c : ascii) : bool :=
  Ascii.eqb c ","%char || Ascii.eqb c dquote ||
  Ascii.eqb c "010"%char || (cr && Ascii.eqb c "013"%char).

Fixpoint needs_quoting (cr : bool) (s : string) : bool :=
  match s with
  | EmptyString => false
  | String c s' => is_special cr c || needs_quoting cr s'
  end.

Fixpoint double_quotes (s : string) : string :=
  match s with
  | EmptyString => EmptyString
  | String c s' =>
      if Ascii.eqb c dquote then String c (String c (double_quotes s'))
      else String c (double_quotes s')
  end.

Definition quoted (s : string) : string :=
  String dquote (double_quotes s) +:+ String dquote EmptyString.

Definition csv_field (cr : bool) (s : string) : string :=
  if needs_quoting cr s then quoted s else s.

Definition csv_writerow (cr : bool) (fields : list string) : string :=
  match fields with
  | [EmptyString] => quoted EmptyString +:+ LF
  | _ => String.concat "," (csv_field cr <$> fields) +:+ LF
  end.




End Pandas.

Export Pandas.

(** ** The world the script runs in *)

Module Runtime.

Record request : Type := mkRequest {
  url : string;
  params : list (string * pyval)
}.

(** What the script reads of a [requests.Response]: [status_code], [text]
    and the outcome of [json()], which raises when the body is no JSON. *)
Record response : Type := mkResponse {
  status_code : Z;
  text : string;
  json : lib_error + pyval
}.

(** The parts of the run the script does not decide.
    - [requests_get]: the answer of the network to a GET, given the
      requests sent before it; [inl] is an exception of the transport;
    - [py_str]: the text Python interpolates in an f-string for a parsed
      value or a list of column names;
    - [error_str]: [str(e)] of an exception the script did not raise;
    - [frame_other]: [pd.DataFrame(v)] when [v] is not a list of
      dictionaries;
    - [cell_other]: the cell [pd.DataFrame] makes, given the records and
      the column, of a value that is not a string (pandas converts by
      column: an integer beside a missing key becomes a float, a null may
      become NaN);
    - [head_str], [describe_str]: the rendering of [df.head(10)] and of
      [df.describe()], the second of which may raise;
    - [csv_other]: the text [to_csv] writes for a cell of column [j] that
      holds neither a string, nor [None], nor NaN;
    - [csv_quotes_cr]: whether the row writer quotes a field for a carriage
      return in it;
    - [today]: [datetime.now().strftime('%B %d, %Y')]. *)
Record runtime : Type := mkRuntime {
  requests_get : list request -> request -> lib_error + response;
  py_str : pyval -> string;
  error_str : exn -> string;
  frame_other : pyval -> lib_error + DataFrame;
  cell_other : list dict -> string -> pyval -> cell;
  head_str : DataFrame -> string;
  describe_str : DataFrame -> lib_error + string;
  csv_other : DataFrame -> nat -> pyval -> string;
  csv_quotes_cr : bool;
  today : string
}.

(** Console lines printed, requests sent and files on disk, oldest first. *)
Record state : Type := mkState {
  stdout : list string;
  sent : list request;
  files : gmap string string
}.

Definition M (A : Type) : Type := state -> state * result A.

#[export] Instance M_ret : MRet M := fun A a st => (st, Ok a).

#[export] Instance M_bind : MBind M := fun A B k m st =>
  match m st with
  | (st', Ok a) => k a st'
  | (st', Raise e) => (st', Raise e)
  end.

Definition raise {A : Type} (e : exn) : M A := fun st => (st, Raise e).

Definition lift {A : Type} (r : result A) : M A := fun st => (st, r).

(** The outcome of a library call as an outcome of the script. *)
Definition from_lib {A : Type} (r : lib_error + A) : result A :=
  match r with
  | inl e => Raise (LibraryError e)
  | inr a => Ok a
  end.

(** [try: body / except Exception as e: handler e]: what the body did
    before it raised stays done. *)
Definition try_except {A : Type} (body : M A) (handler : exn -> M A) : M A := fun st =>
  match body st with
  | (st', Ok a) => (st', Ok a)
  | (st', Raise e) => handler e st'
  end.

(** The console after some more lines, the network after one more request. *)
Definition say (lines : list string) (st : state) : state :=
  {| stdout := stdout st ++ lines; sent := sent st; files := files st |}.

Definition post (req : request) (st : state) : state :=
  {| stdout := stdout st; sent := sent st ++ [req]; files := files st |}.

Definition print (line : string) : M unit := fun st => (say [line] st, Ok tt).

(** [str(e)] *)
Definition str_exn (W : runtime) (e : exn) : string :=
  match e with
  | Exception msg => msg
  | _ => error_str W e
  end.

(** [requests.get(endpoint, params=params)] *)
Definition get (W : runtime) (endpoint : string) (ps : list (string * pyval)) : M response :=
  fun st =>
  let req := {| url := endpoint; params := ps |} in
  (post req st,
   from_lib (requests_get W (sent st) req)).

(** The table of a list of records: one row per record, one cell per
    column.  Under a column a record that lacks the key has nothing, one
    that holds a string has that string, and what it has of another value
    is up to pandas. *)
Definition cell_of_record (W : runtime) (ds : list dict) (d : dict) (k : string) : cell :=
  match dict_lookup d k with
  | None => None
  | Some (PyStr s) => Some (PyStr s)
  | Some v => cell_other W ds k v
  end.

Definition row_of_record (W : runtime) (ds : list dict) (cols : list string) (d : dict) :
  list cell :=
  cell_of_record W ds d <$> cols.

Definition frame_of_records (W : runtime) (ds : list dict) : DataFrame :=
  let cols := union_keys ds in
  {| columns := cols; rows := row_of_record W ds cols <$> ds |}.

(** [pd.DataFrame(v)] *)
Definition pd_DataFrame (W : runtime) (v : pyval) : result DataFrame :=
  match v with
  | PyList items =>
      match as_records items with
      | Some ds => Ok (frame_of_records W ds)
      | None => from_lib (frame_other W v)
      end
  | _ => from_lib (frame_other W v)
  end.

(** The text of a cell as [to_csv] hands it to the row writer: a string as
    it is, nothing for [None] and for NaN. *)
Definition csv_cell (W : runtime) (df : DataFrame) (j : nat) (c : cell) : string :=
  match c with
  | None => EmptyString
  | Some PyNone => EmptyString
  | Some (PyStr s) => s
  | Some v => csv_other W df j v
  end.

(** The text of a table: the header row, then one row per record. *)
Definition csv_text (W : runtime) (df : DataFrame) : string :=
  csv_writerow (csv_quotes_cr W) (columns df) +:+
  String.concat EmptyString
    ((fun r => csv_writerow (csv_quotes_cr W) (imap (csv_cell W df) r)) <$> rows df).

(** [df.to_csv(path, index=False)]: the file is created or overwritten. *)
Definition to_csv (W : runtime) (df : DataFrame) (path : string) : M unit := fun st =>
  ({| stdout := stdout st; sent := sent st; files := <[path := csv_text W df]> (files st) |},
   Ok tt).

End Runtime.

Export Runtime.

(** ** The script *)

Definition BASE_URL : string :=
  "https://api.fiscaldata.treasury.gov/services/api/fiscal_service".

Definition rule : string := str_repeat "=" 80.

Definition primary_endpoint : string := BASE_URL +:+ "/v2/accounting/od/avg_interest_rates".

Definition primary_params : list (string * pyval) :=
  [ ("fields", PyStr "record_date,security_desc,avg_interest_rate_amt,src_line_nbr,security_type_desc");
    ("sort", PyStr "-record_date");
    ("page[size]", PyInt 1000);
    ("filter", PyStr "record_date:gte:2025-01-01") ].

Definition fallback_endpoint : string := BASE_URL +:+ "/v1/accounting/od/securities_sales".

Definition fallback_params : list (string * pyval) :=
  [ ("sort", PyStr "-record_date");
    ("page[size]", PyInt 100);
    ("filter", PyStr "record_date:gte:2024-01-01") ].

Definition primary_request : request :=
  {| url := primary_endpoint; params := primary_params |}.

Definition fallback_request : request :=
  {| url := fallback_endpoint; params := fallback_params |}.

Definition fetch_treasury_securities (W : runtime) : M DataFrame :=
  let endpoint := primary_endpoint in
  let params := primary_params in
  print "Fetching data from US Treasury Fiscal Data API...";;
  print ("URL: " +:+ endpoint);;
  response ← get W endpoint params;
  if negb (status_code response =? 200) then
    raise (Exception ("API request failed with status " +:+ str_int (status_code response)
                      +:+ ": " +:+ text response))
  else
    data ← lift (from_lib (json response));
    has ← lift (py_in "data" data);
    if negb has then
      raise (Exception ("No data returned from API. Response: " +:+ py_str W data))
    else
      rows ← lift (py_getitem data "data");
      lift (pd_DataFrame W rows).

Definition fetch_securities_from_treasurydirect (W : runtime) : M DataFrame :=
  print (LF +:+ "Fetching treasury auction data...");;
  let endpoint := fallback_endpoint in
  let params := fallback_params in
  response ← get W endpoint params;
  if negb (status_code response =? 200) then
    raise (Exception ("API request failed: " +:+ str_int (status_code response)))
  else
    data ← lift (from_lib (json response));
    rows ← lift (py_get data "data" (PyList []));
    lift (pd_DataFrame W rows).

Definition get_treasury_securities_portfolio (W : runtime) : M DataFrame :=
  try_except
    (df ← fetch_treasury_securities W;
     print ("✓ Retrieved " +:+ str_int (len df) +:+ " records from Treasury API");;
     mret df)
    (fun e =>
     print ("Primary API failed: " +:+ str_exn W e);;
     print "Trying alternative endpoint...";;
     df ← fetch_securities_from_treasurydirect W;
     print ("✓ Retrieved " +:+ str_int (len df) +:+ " records from alternative source");;
     mret df).

Definition output_file : string := "treasury_securities_raw_data.csv".

(** The block under [if __name__ == "__main__":]. *)
Definition main (W : runtime) : M unit :=
  print rule;;
  print "FETCHING 30 US TREASURY SECURITIES FROM OFFICIAL GOVERNMENT SOURCES";;
  print rule;;
  print (LF +:+ "Data Source: US Department of Treasury - Fiscal Data API");;
  print ("API Base URL: " +:+ BASE_URL);;
  print ("Date: " +:+ today W);;
  print EmptyString;;
  try_except
    (securities_df ← get_treasury_securities_portfolio W;
     print (LF +:+ "Data Retrieved Successfully!");;
     print ("Total records: " +:+ str_int (len securities_df));;
     print (LF +:+ "Columns available: " +:+ py_str W (PyList (PyStr <$> columns securities_df)));;
     print (LF +:+ "First few records:");;
     print (head_str W securities_df);;
     to_csv W securities_df output_file;;
     print (LF +:+ "✓ Saved raw data to: " +:+ output_file);;
     print (LF +:+ rule);;
     print "DATA SUMMARY";;
     print rule;;
     summary ← lift (from_lib (describe_str W securities_df));
     print summary)
    (fun e =>
     print (LF +:+ "✗ ERROR: " +:+ str_exn W e);;
     print (LF +:+ "The API may have changed or may be temporarily unavailable.");;
     print "Please verify the API endpoint at: https://fiscaldata.treasury.gov/api-documentation/";;
     raise e).

(** The whole file run as a script: the main block, then the closing banner. *)
Definition script (W : runtime) : M unit :=
  main W;;
  print (LF +:+ rule);;
  print "SCRIPT COMPLETE";;
  print rule.

(** The state in which each fetcher leaves the console and the network,
    and the one in which the driver and the assembler call their callee. *)
Definition primary_started (st : state) : state :=
  post primary_request
    (say ["Fetching data from US Treasury Fiscal Data API..."; "URL: " +:+ primary_endpoint] st).

Definition fallback_started (st : state) : state :=
  post fallback_request (say [LF +:+ "Fetching treasury auction data..."] st).

Definition falling_back (W : runtime) (e : exn) (st : state) : state :=
  say ["Primary API failed: " +:+ str_exn W e; "Trying alternative endpoint..."] st.

Definition banner (W : runtime) (st : state) : state :=
  say [ rule;
        "FETCHING 30 US TREASURY SECURITIES FROM OFFICIAL GOVERNMENT SOURCES";
        rule;
        LF +:+ "Data Source: US Department of Treasury - Fiscal Data API";
        "API Base URL: " +:+ BASE_URL;
        "Date: " +:+ today W;
        EmptyString ] st.

(** A parsed body has the envelope's key when it is a JSON object with a
    member of that name. *)
Definition has_key (k : string) (body : pyval) : Prop :=
  match body with
  | PyDict d => is_Some (dict_lookup d k)
  | _ => False
  end.

(** ** A concrete world, to run the script in *)

Module Demo.

Definition answers (primary fallback : lib_error + response)
  (_ : list request) (q : request) : lib_error + response :=
  if String.eqb (url q) primary_endpoint then primary else fallback.

Definition world (primary fallback : lib_error + response) : runtime :=
  {| requests_get := answers primary fallback;
     py_str := fun _ => "<value>";
     error_str := fun _ => "<error>";
     frame_other := fun _ =>
       inl (LibError "ValueError" "DataFrame constructor not properly called!");
     cell_other := fun _ _ v => match v with PyNone => None | _ => Some v end;
     head_str := fun _ => "<head>";
     describe_str := fun df =>
       match columns df with
       | [] => inl (LibError "ValueError" "Cannot describe a DataFrame without columns")
       | _ => inr "<describe>"
       end;
     csv_other := fun _ _ _ => "<cell>";
     csv_quotes_cr := false;
     today := "November 03, 2026" |}.

Definition fresh : state := {| stdout := []; sent := []; files := ∅ |}.

Definition reply (status : Z) (body : string) (parsed : lib_error + pyval) : response :=
  {| status_code := status; text := body; json := parsed |}.

Definition answer (status : Z) (body : string) (parsed : lib_error + pyval) :
  lib_error + response :=
  inr (reply status body parsed).

Definition not_json : lib_error + pyval :=
  inl (LibError "JSONDecodeError" "Expecting value: line 1 column 1 (char 0)").

Definition not_found : lib_error + response := answer 404 "Not Found" not_json.

Definition rates : list dict :=
  [ [("record_date", PyStr "2025-01-01"); ("avg_interest_rate_amt", PyStr "4.5")] ].

Definition rates_body : pyval := PyDict [("data", PyList (PyDict <$> rates))].

Definition sales : list dict :=
  [ [("record_date", PyStr "2024-03-31"); ("security_desc", PyStr "Bills")];
    [("security_desc", PyStr "Notes"); ("net_sales_amt", PyStr "12.50")] ].

Definition sales_body : pyval := PyDict [("meta", PyNone); ("data", PyList (PyDict <$> sales))].

Definition foo : dict := [("foo", PyList [])].

(** The primary source answers with the rates. *)
Definition primary_up : runtime := world (answer 200 "<rates>" (inr rates_body)) not_found.

(** The primary source is gone, the fallback answers with the sales. *)
Definition primary_down : runtime := world not_found (answer 200 "<sales>" (inr sales_body)).

(** Both sources answer 200 with a body that has no [data] key. *)
Definition no_envelope : runtime :=
  world (answer 200 "<foo>" (inr (PyDict foo))) (answer 200 "<foo>" (inr (PyDict foo))).

(** The primary source is gone and the fallback is out of service. *)
Definition both_down : runtime :=
  world not_found (answer 503 "Service Unavailable" not_json).

(** The primary source answers 404 with a body that does hold the rates. *)
Definition refused_with_data : runtime :=
  world (answer 404 "<rates>" (inr rates_body)) not_found.

(** No source can be reached. *)
Definition unreachable : lib_error :=
  LibError "ConnectionError" "Failed to establish a new connection".

Definition offline : runtime := world (inl unreachable) (inl unreachable).

(** Both sources answer 200 with a page that is no JSON. *)
Definition garbled : runtime :=
  world (answer 200 "<html>" not_json) (answer 200 "<html>" not_json).

(** Both sources answer 200 with a JSON array. *)
Definition arrays : runtime :=
  world (answer 200 "[]" (inr (PyList []))) (answer 200 "[]" (inr (PyList []))).

(** The primary source answers 200 with the number 5. *)
Definition number_body : runtime := world (answer 200 "5" (inr (PyInt 5))) not_found.



(** Both sources answer 200 with an object whose [data] is a number. *)
Definition scalar_data : runtime :=
  world (answer 200 "<5>" (inr (PyDict [("data", PyInt 5)])))
        (answer 200 "<5>" (inr (PyDict [("data", PyInt 5)]))).

End Demo.

(** * Properties *)

(** ** Running the monad *)

Lemma run_bind {A B : Type} (m : M A) (k : A -> M B) (st : state) :
  (m ≫= k) st =
  match m st with
  | (st', Ok a) => k a st'
  | (st', Raise e) => (st', Raise e)
  end.
Proof. reflexivity. Qed.

Lemma run_print {B : Type} (line : string) (k : unit -> M B) (st : state) :
  (print line ≫= k) st = k tt (say [line] st).
Proof. reflexivity. Qed.

Lemma run_lift {A B : Type} (r : result A) (k : A -> M B) (st : state) :
  (lift r ≫= k) st =
  match r with
  | Ok a => k a st
  | Raise e => (st, Raise e)
  end.
Proof. by destruct r. Qed.

Lemma say_say (l1 l2 : list string) (st : state) :
  say l2 (say l1 st) = say (l1 ++ l2) st.
Proof. unfold say; simpl. by rewrite <- app_assoc. Qed.

(** ** Tables built from records *)

Section Frames.

Implicit Types (ds : list dict) (keys acc : list string) (k : string).

Lemma first_occurrences_filter (P : string -> Prop) `{!∀ k, Decision (P k)} keys :
  first_occurrences (filter P keys) = filter P (first_occurrences keys).
Proof.
  induction keys as [|k keys IH]; [done|].
  rewrite filter_cons. destruct (decide (P k)) as [HP|HP]; simpl.
  - rewrite filter_cons_True by done. rewrite IH.
    f_equal. rewrite !list_filter_filter. apply list_filter_iff. (intros; cbv beta; intuition congruence).
  - rewrite filter_cons_False by done. rewrite IH.
    rewrite list_filter_filter. apply list_filter_iff.
    intros k'. (intros; cbv beta; intuition congruence).
Qed.

Lemma elem_of_first_occurrences keys k : k ∈ first_occurrences keys ↔ k ∈ keys.
Proof.
  induction keys as [|k0 keys IH]; [done|]. simpl.
  rewrite !elem_of_cons, list_elem_of_filter, IH.
  destruct (decide (k = k0)); (intros; cbv beta; intuition congruence).
Qed.

Lemma NoDup_first_occurrences keys : NoDup (first_occurrences keys).
Proof.
  induction keys as [|k keys IH]; simpl; [constructor|].
  apply NoDup_cons. split.
  - rewrite list_elem_of_filter. (intros; cbv beta; intuition congruence).
  - by apply NoDup_filter.
Qed.

Lemma add_keys_first_occurrences acc keys :
  add_keys acc keys = acc ++ first_occurrences (filter (fun k => k ∉ acc) keys).
Proof.
  unfold add_keys. revert acc.
  induction keys as [|k keys IH]; intros acc; simpl.
  - by rewrite app_nil_r.
  - rewrite filter_cons. case_bool_decide as Hk.
    + rewrite IH. destruct (decide (k ∉ acc)); [done|]. done.
    + rewrite IH. destruct (decide (k ∉ acc)); [|done]. simpl.
      rewrite <- app_assoc. simpl. do 2 f_equal.
      rewrite <- first_occurrences_filter, list_filter_filter.
      f_equal. apply list_filter_iff. intros k'.
      rewrite not_elem_of_app, list_elem_of_singleton. (intros; cbv beta; intuition congruence).
Qed.

Lemma fold_add_keys ds acc :
  fold_left (fun acc d => add_keys acc (dict_keys d)) ds acc =
  add_keys acc (mjoin (dict_keys <$> ds)).
Proof.
  revert acc. induction ds as [|d ds IH]; intros acc; simpl; [done|].
  rewrite IH. unfold add_keys. by rewrite fold_left_app.
Qed.

(** The columns pandas gives a table of records are the records' keys in
    the order first encountered. *)
Lemma union_keys_first_occurrences ds :
  union_keys ds = first_occurrences (mjoin (dict_keys <$> ds)).
Proof.
  unfold union_keys. rewrite fold_add_keys, add_keys_first_occurrences. simpl.
  f_equal. induction (mjoin (dict_keys <$> ds)) as [|k l IH]; [done|].
  rewrite filter_cons_True by apply not_elem_of_nil. by rewrite IH.
Qed.

Lemma elem_of_union_keys ds k :
  k ∈ union_keys ds ↔ ∃ d, d ∈ ds ∧ k ∈ dict_keys d.
Proof.
  rewrite union_keys_first_occurrences, elem_of_first_occurrences.
  rewrite list_elem_of_join. split.
  - intros (keys & Hk & Hkeys). apply list_elem_of_fmap in Hkeys as (d & -> & Hd). eauto.
  - intros (d & Hd & Hk). exists (dict_keys d). split; [done|].
    by apply list_elem_of_fmap_2.
Qed.

Lemma as_records_dicts ds : as_records (PyDict <$> ds) = Some ds.
Proof. induction ds as [|d ds IH]; [done|]. rewrite fmap_cons. simpl. by rewrite IH. Qed.

(** What the table of [N] records is: [N] rows, one column per key met, in
    the order first encountered and none twice, and in row [i] one cell per
    column, empty where record [i] lacks the key and holding the string
    where record [i] holds a string. *)
Lemma frame_of_records_spec (W : runtime) ds :
  let df := frame_of_records W ds in
  len df = Z.of_nat (length ds) ∧
  columns df = first_occurrences (mjoin (dict_keys <$> ds)) ∧
  NoDup (columns df) ∧
  (∀ k, k ∈ columns df ↔ ∃ d, d ∈ ds ∧ k ∈ dict_keys d) ∧
  (∀ i d, ds !! i = Some d →
     ∃ row, rows df !! i = Some row ∧
            length row = length (columns df) ∧
            ∀ j k, columns df !! j = Some k →
                   (dict_lookup d k = None → row !! j = Some None) ∧
                   (∀ s, dict_lookup d k = Some (PyStr s) → row !! j = Some (Some (PyStr s)))).
Proof.
  simpl. split_and!.
  - unfold len. simpl. by rewrite length_fmap.
  - apply union_keys_first_occurrences.
  - rewrite union_keys_first_occurrences. apply NoDup_first_occurrences.
  - apply elem_of_union_keys.
  - intros i d Hi. exists (row_of_record W ds (union_keys ds) d). split_and!.
    + by rewrite list_lookup_fmap, Hi.
    + unfold row_of_record. by rewrite length_fmap.
    + intros j k Hj. unfold row_of_record. rewrite list_lookup_fmap, Hj. simpl.
      unfold cell_of_record. split.
      * by intros ->.
      * by intros s ->.
Qed.

End Frames.

(** ** The two fetchers, case by case *)

Section Fetchers.

Variable W : runtime.

Implicit Types (st : state) (r : response) (d : dict) (ds : list dict).

(** Unfolds a fetcher up to the answer of the network. *)
Ltac send :=
  unfold fetch_treasury_securities, fetch_securities_from_treasurydirect;
  rewrite ?run_print, run_bind; unfold get at 1; rewrite ?say_say;
  fold primary_request; fold fallback_request;
  change (sent (say ?l ?st)) with (sent st).

(** Reads the parsed body once the status is known to be 200. *)
Ltac parse Hstatus Hjson :=
  rewrite Hstatus; change (negb (200 =? 200)) with false; cbv iota;
  rewrite run_lift, Hjson; cbn [from_lib].

Lemma pd_DataFrame_not_raised_by_script (v : pyval) (msg : string) :
  pd_DataFrame W v ≠ Raise (Exception msg).
Proof.
  unfold pd_DataFrame. destruct v; try (by destruct (frame_other W _)).
  destruct (as_records items); [done|]. by destruct (frame_other W _).
Qed.

Lemma fetch_treasury_securities_state st :
  fst (fetch_treasury_securities W st) = primary_started st.
Proof.
  send. destruct (requests_get W (sent st) primary_request) as [e|r]; [done|].
  cbn [from_lib]. destruct (negb (status_code r =? 200)); [done|].
  rewrite run_lift. destruct (from_lib (json r)) as [data|e]; [|done].
  rewrite run_lift. destruct (py_in "data" data) as [has|e]; [|done].
  destruct (negb has); [done|].
  rewrite run_lift. by destruct (py_getitem data "data").
Qed.

Lemma fetch_treasury_securities_not_200 st r :
  requests_get W (sent st) primary_request = inr r →
  status_code r ≠ 200 →
  fetch_treasury_securities W st =
  (primary_started st,
   Raise (Exception ("API request failed with status " +:+ str_int (status_code r)
                     +:+ ": " +:+ text r))).
Proof.
  intros Hget Hstatus. send. rewrite Hget. cbn [from_lib].
  by destruct (Z.eqb_spec (status_code r) 200).
Qed.

Lemma fetch_treasury_securities_no_key st r d :
  requests_get W (sent st) primary_request = inr r →
  status_code r = 200 →
  json r = inr (PyDict d) →
  dict_lookup d "data" = None →
  fetch_treasury_securities W st =
  (primary_started st,
   Raise (Exception ("No data returned from API. Response: " +:+ py_str W (PyDict d)))).
Proof.
  intros Hget Hstatus Hjson Hkey. send. rewrite Hget. cbn [from_lib].
  parse Hstatus Hjson. rewrite run_lift. unfold py_in. rewrite Hkey.
  rewrite bool_decide_eq_false_2 by (by intros [? ?]). done.
Qed.

Lemma fetch_treasury_securities_key st r d (v : pyval) :
  requests_get W (sent st) primary_request = inr r →
  status_code r = 200 →
  json r = inr (PyDict d) →
  dict_lookup d "data" = Some v →
  fetch_treasury_securities W st = (primary_started st, pd_DataFrame W v).
Proof.
  intros Hget Hstatus Hjson Hkey. send. rewrite Hget. cbn [from_lib].
  parse Hstatus Hjson. rewrite run_lift. unfold py_in. rewrite Hkey.
  rewrite bool_decide_eq_true_2 by eauto. cbv iota. change (negb true) with false. cbv iota.
  rewrite run_lift. unfold py_getitem. rewrite Hkey. done.
Qed.

(** Whatever the body is, a body without the key makes the primary fail. *)
Lemma fetch_treasury_securities_no_envelope st r (body : pyval) :
  requests_get W (sent st) primary_request = inr r →
  status_code r = 200 →
  json r = inr body →
  ¬ has_key "data" body →
  ∃ e, fetch_treasury_securities W st = (primary_started st, Raise e).
Proof.
  intros Hget Hstatus Hjson Hkey. send. rewrite Hget. cbn [from_lib].
  parse Hstatus Hjson. rewrite run_lift.
  destruct body as [| | | |s|items|d]; cbn [py_in]; eauto.
  - destruct (str_contains "data" s); cbn [negb]; [|eauto].
    rewrite run_lift. cbn [py_getitem]. eauto.
  - destruct (existsb _ items); cbn [negb]; [|eauto].
    rewrite run_lift. cbn [py_getitem]. eauto.
  - rewrite bool_decide_eq_false_2 by done. cbn [negb]. eauto.
Qed.

Lemma fetch_securities_from_treasurydirect_state st :
  fst (fetch_securities_from_treasurydirect W st) = fallback_started st.
Proof.
  send. destruct (requests_get W (sent st) fallback_request) as [e|r]; [done|].
  cbn [from_lib]. destruct (negb (status_code r =? 200)); [done|].
  rewrite run_lift. destruct (from_lib (json r)) as [data|e]; [|done].
  rewrite run_lift. by destruct (py_get data "data" (PyList [])).
Qed.

Lemma fetch_securities_from_treasurydirect_object st r d :
  requests_get W (sent st) fallback_request = inr r →
  status_code r = 200 →
  json r = inr (PyDict d) →
  fetch_securities_from_treasurydirect W st =
  (fallback_started st, pd_DataFrame W (default (PyList []) (dict_lookup d "data"))).
Proof.
  intros Hget Hstatus Hjson. send. rewrite Hget. cbn [from_lib].
  parse Hstatus Hjson. rewrite run_lift. unfold py_get.
  by destruct (dict_lookup d "data").
Qed.

End Fetchers.

(** ** The fetchers' contracts *)

(** C2. A primary response with status 200 whose body is an object holding,
    under [data], an array of [N] objects makes [fetch_treasury_securities]
    return a table of exactly [N] records whose columns are exactly the keys
    of those objects, in the order first encountered; each record has one
    cell per column, empty where its object lacks the key and holding the
    string where its object holds a string. *)
Theorem primary_returns_one_record_per_element
  (W : runtime) (st : state) (r : response) (d : dict) (ds : list dict) :
  requests_get W (sent st) primary_request = inr r →
  status_code r = 200 →
  json r = inr (PyDict d) →
  dict_lookup d "data" = Some (PyList (PyDict <$> ds)) →
  ∃ df, fetch_treasury_securities W st = (primary_started st, Ok df) ∧
        len df = Z.of_nat (length ds) ∧
        columns df = first_occurrences (mjoin (dict_keys <$> ds)) ∧
        NoDup (columns df) ∧
        (∀ k, k ∈ columns df ↔ ∃ rec, rec ∈ ds ∧ k ∈ dict_keys rec) ∧
        (∀ i rec, ds !! i = Some rec →
           ∃ row, rows df !! i = Some row ∧
                  length row = length (columns df) ∧
                  ∀ j k, columns df !! j = Some k →
                         (dict_lookup rec k = None → row !! j = Some None) ∧
                         (∀ s, dict_lookup rec k = Some (PyStr s) →
                               row !! j = Some (Some (PyStr s)))).
Proof.
  intros Hget Hstatus Hjson Hdata. exists (frame_of_records W ds). split.
  - rewrite (fetch_treasury_securities_key W st r d _ Hget Hstatus Hjson Hdata).
    unfold pd_DataFrame. by rewrite as_records_dicts.
  - apply frame_of_records_spec.
Qed.

(** C3, amended.  Once the primary response has arrived, and its body is a
    JSON object whenever its status is 200, [fetch_treasury_securities] fails with
    an exception of its own raising exactly when the status is not 200 or the
    object lacks the [data] key; in the first case the message carries the
    status code and the response text, in the second the whole parsed body. *)
Theorem primary_raises_iff_bad_status_or_no_key
  (W : runtime) (st : state) (r : response) :
  requests_get W (sent st) primary_request = inr r →
  (status_code r = 200 → ∃ d, json r = inr (PyDict d)) →
  let outcome := snd (fetch_treasury_securities W st) in
  ((∃ msg, outcome = Raise (Exception msg)) ↔
   (status_code r ≠ 200 ∨ ∃ d, json r = inr (PyDict d) ∧ dict_lookup d "data" = None)) ∧
  (status_code r ≠ 200 →
   outcome = Raise (Exception ("API request failed with status " +:+ str_int (status_code r)
                               +:+ ": " +:+ text r))) ∧
  (∀ d, status_code r = 200 → json r = inr (PyDict d) → dict_lookup d "data" = None →
   outcome = Raise (Exception ("No data returned from API. Response: " +:+ py_str W (PyDict d)))).
Proof.
  intros Hget Hobject outcome. subst outcome. split_and!.
  - destruct (decide (status_code r = 200)) as [Hstatus|Hstatus].
    + destruct (Hobject Hstatus) as [d Hjson].
      destruct (dict_lookup d "data") as [v|] eqn:Hkey.
      * rewrite (fetch_treasury_securities_key W st r d v) by done. simpl. split.
        -- intros [msg Hmsg]. by apply pd_DataFrame_not_raised_by_script in Hmsg.
        -- intros [?|(d' & Hjson' & Hkey')]; [done|]. congruence.
      * rewrite (fetch_treasury_securities_no_key W st r d) by done. simpl. split; eauto.
    + rewrite (fetch_treasury_securities_not_200 W st r) by done. simpl. split; eauto.
  - intros Hstatus. by rewrite (fetch_treasury_securities_not_200 W st r).
  - intros d Hstatus Hjson Hkey. by rewrite (fetch_treasury_securities_no_key W st r d).
Qed.

(** C5, amended.  A fallback response with status 200 whose body is an
    object without the [data] key makes [fetch_securities_from_treasurydirect] return the
    empty table: no failure, no row, no column. *)
Theorem fallback_without_key_returns_empty
  (W : runtime) (st : state) (r : response) (d : dict) :
  requests_get W (sent st) fallback_request = inr r →
  status_code r = 200 →
  json r = inr (PyDict d) →
  dict_lookup d "data" = None →
  ∃ df, fetch_securities_from_treasurydirect W st = (fallback_started st, Ok df) ∧
        len df = 0 ∧ rows df = [] ∧ columns df = [].
Proof.
  intros Hget Hstatus Hjson Hkey. exists (frame_of_records W []).
  rewrite (fetch_securities_from_treasurydirect_object W st r d) by done.
  by rewrite Hkey.
Qed.

(** C6. A fallback response with a status other than 200 makes
    [fetch_securities_from_treasurydirect] fail with an exception of its own
    raising whose message is made of the status code alone: the response
    text is not part of it. *)
Theorem fallback_bad_status_carries_code_only
  (W : runtime) (st : state) (r : response) :
  requests_get W (sent st) fallback_request = inr r →
  status_code r ≠ 200 →
  fetch_securities_from_treasurydirect W st =
  (fallback_started st,
   Raise (Exception ("API request failed: " +:+ str_int (status_code r)))).
Proof.
  intros Hget Hstatus. unfold fetch_securities_from_treasurydirect.
  rewrite run_print, run_bind. unfold get at 1. fold fallback_request.
  change (sent (say _ st)) with (sent st). rewrite Hget. cbn [from_lib].
  by destruct (Z.eqb_spec (status_code r) 200).
Qed.

(** C9. A fallback response with status 200 whose body is an object holding,
    under [data], an array of [N] objects makes
    [fetch_securities_from_treasurydirect] return a table of exactly [N]
    records whose columns are exactly the keys of those objects. *)
Theorem fallback_returns_one_record_per_element
  (W : runtime) (st : state) (r : response) (d : dict) (ds : list dict) :
  requests_get W (sent st) fallback_request = inr r →
  status_code r = 200 →
  json r = inr (PyDict d) →
  dict_lookup d "data" = Some (PyList (PyDict <$> ds)) →
  ∃ df, fetch_securities_from_treasurydirect W st = (fallback_started st, Ok df) ∧
        len df = Z.of_nat (length ds) ∧
        columns df = first_occurrences (mjoin (dict_keys <$> ds)) ∧
        NoDup (columns df) ∧
        (∀ k, k ∈ columns df ↔ ∃ rec, rec ∈ ds ∧ k ∈ dict_keys rec) ∧
        (∀ i rec, ds !! i = Some rec →
           ∃ row, rows df !! i = Some row ∧
                  length row = length (columns df) ∧
                  ∀ j k, columns df !! j = Some k →
                         (dict_lookup rec k = None → row !! j = Some None) ∧
                         (∀ s, dict_lookup rec k = Some (PyStr s) →
                               row !! j = Some (Some (PyStr s)))).
Proof.
  intros Hget Hstatus Hjson Hdata. exists (frame_of_records W ds). split.
  - rewrite (fetch_securities_from_treasurydirect_object W st r d) by done.
    rewrite Hdata. simpl. by rewrite as_records_dicts.
  - apply frame_of_records_spec.
Qed.

(** C10. The primary fetcher tests the status before it reads the body: with
    a status other than 200 the exception is the one that carries the status
    and the text, whatever the body parses to; and the exception about the
    missing key is raised under status 200 only. *)
Theorem primary_checks_status_before_body
  (W : runtime) (st : state) (r : response) :
  requests_get W (sent st) primary_request = inr r →
  (status_code r ≠ 200 →
   snd (fetch_treasury_securities W st) =
   Raise (Exception ("API request failed with status " +:+ str_int (status_code r)
                     +:+ ": " +:+ text r))) ∧
  (∀ body,
   snd (fetch_treasury_securities W st) =
   Raise (Exception ("No data returned from API. Response: " +:+ py_str W body)) →
   status_code r = 200).
Proof.
  intros Hget. split.
  - intros Hstatus. by rewrite (fetch_treasury_securities_not_200 W st r).
  - intros body Hraised. destruct (decide (status_code r = 200)) as [|Hstatus]; [done|].
    rewrite (fetch_treasury_securities_not_200 W st r) in Hraised by done.
    simpl in Hraised. discriminate Hraised.
Qed.

(** ** The assembler *)

Section Assembler.

Variable W : runtime.

Implicit Types (st : state) (df : DataFrame) (e : exn).

Lemma portfolio_when_primary_returns st st1 df :
  fetch_treasury_securities W st = (st1, Ok df) →
  get_treasury_securities_portfolio W st =
  (say ["✓ Retrieved " +:+ str_int (len df) +:+ " records from Treasury API"] st1, Ok df).
Proof.
  intros Hprimary. unfold get_treasury_securities_portfolio, try_except.
  by rewrite run_bind, Hprimary.
Qed.

Lemma portfolio_when_primary_raises st st1 e :
  fetch_treasury_securities W st = (st1, Raise e) →
  get_treasury_securities_portfolio W st =
  match fetch_securities_from_treasurydirect W (falling_back W e st1) with
  | (st2, Ok df) =>
      (say ["✓ Retrieved " +:+ str_int (len df) +:+ " records from alternative source"] st2,
       Ok df)
  | (st2, Raise e') => (st2, Raise e')
  end.
Proof.
  intros Hprimary. unfold get_treasury_securities_portfolio, try_except.
  rewrite run_bind, Hprimary. rewrite !run_print, say_say, run_bind.
  change ([_] ++ [_]) with ["Primary API failed: " +:+ str_exn W e; "Trying alternative endpoint..."].
  fold (falling_back W e st1).
  by destruct (fetch_securities_from_treasurydirect W (falling_back W e st1)) as [st2 [df|e']].
Qed.

(** The requests of a run of the assembler once the primary has failed. *)
Lemma sent_after_fallback st e :
  sent (fallback_started (falling_back W e (primary_started st))) =
  sent st ++ [primary_request; fallback_request].
Proof. simpl. by rewrite <- app_assoc. Qed.

Lemma files_after_fallback st e :
  files (fallback_started (falling_back W e (primary_started st))) = files st.
Proof. reflexivity. Qed.

End Assembler.

(** C1. [get_treasury_securities_portfolio] returns the table of the primary
    fetcher when that one returns, having sent the primary request and no
    other; when the primary fetcher raises, whatever the exception, it runs
    the fallback fetcher once and its outcome is the outcome of that run: the
    requests sent are the primary one, once, then the fallback one, once.
    The table returned is the one or the other, never a mix. *)
Theorem assembler_returns_primary_or_falls_back_once (W : runtime) (st : state) :
  match fetch_treasury_securities W st with
  | (st1, Ok df) =>
      ∃ st', get_treasury_securities_portfolio W st = (st', Ok df) ∧
             sent st' = sent st ++ [primary_request]
  | (st1, Raise e) =>
      let (st2, outcome) := fetch_securities_from_treasurydirect W (falling_back W e st1) in
      ∃ st', get_treasury_securities_portfolio W st = (st', outcome) ∧
             sent st' = sent st ++ [primary_request; fallback_request]
  end.
Proof.
  pose proof (fetch_treasury_securities_state W st) as Hst1.
  destruct (fetch_treasury_securities W st) as [st1 [df|e]] eqn:Hprimary;
    simpl in Hst1; subst st1.
  - eexists. split; [by apply portfolio_when_primary_returns|]. done.
  - rewrite (portfolio_when_primary_raises W st _ e Hprimary).
    pose proof (fetch_securities_from_treasurydirect_state W
                  (falling_back W e (primary_started st))) as Hst2.
    destruct (fetch_securities_from_treasurydirect W _) as [st2 [df|e']];
      simpl in Hst2; subst st2; eexists; (split; [done|]);
      apply sent_after_fallback.
Qed.

(** C4. A primary response with status 200 whose parsed body has no [data]
    key makes the primary fetcher raise, never return a table; the assembler
    then runs the fallback fetcher, and its outcome is the outcome of that
    run. *)
Theorem missing_key_is_failure_and_triggers_fallback
  (W : runtime) (st : state) (r : response) (body : pyval) :
  requests_get W (sent st) primary_request = inr r →
  status_code r = 200 →
  json r = inr body →
  ¬ has_key "data" body →
  ∃ e, fetch_treasury_securities W st = (primary_started st, Raise e) ∧
       let (st2, outcome) :=
         fetch_securities_from_treasurydirect W (falling_back W e (primary_started st)) in
       ∃ st', get_treasury_securities_portfolio W st = (st', outcome) ∧
              sent st' = sent st ++ [primary_request; fallback_request].
Proof.
  intros Hget Hstatus Hjson Hkey.
  destruct (fetch_treasury_securities_no_envelope W st r body) as [e Hprimary]; [done..|].
  exists e. split; [done|].
  rewrite (portfolio_when_primary_raises W st _ e Hprimary).
  pose proof (fetch_securities_from_treasurydirect_state W
                (falling_back W e (primary_started st))) as Hst2.
  destruct (fetch_securities_from_treasurydirect W _) as [st2 [df|e']];
    simpl in Hst2; subst st2; eexists; (split; [done|]);
    apply sent_after_fallback.
Qed.

(** ** The driver *)

Section Driver.

Variable W : runtime.

Implicit Types (st : state) (df : DataFrame) (e : exn).

(** Unfolds the main block up to the call of the assembler. *)
Ltac enter_main st :=
  unfold script; rewrite ?(run_bind (main W)); unfold main;
  rewrite !run_print, !say_say; cbn [app]; fold (banner W st); unfold try_except at 1.

Lemma portfolio_files st :
  files (fst (get_treasury_securities_portfolio W st)) = files st.
Proof.
  pose proof (fetch_treasury_securities_state W st) as Hst1.
  destruct (fetch_treasury_securities W st) as [st1 [df|e]] eqn:Hprimary;
    simpl in Hst1; subst st1.
  - by rewrite (portfolio_when_primary_returns W st _ df Hprimary).
  - rewrite (portfolio_when_primary_raises W st _ e Hprimary).
    pose proof (fetch_securities_from_treasurydirect_state W
                  (falling_back W e (primary_started st))) as Hst2.
    by destruct (fetch_securities_from_treasurydirect W _) as [st2 [df|e']];
      simpl in Hst2; subst st2.
Qed.

Lemma script_when_portfolio_raises st st1 e :
  get_treasury_securities_portfolio W (banner W st) = (st1, Raise e) →
  ∃ st', main W st = (st', Raise e) ∧ script W st = (st', Raise e) ∧ files st' = files st.
Proof.
  intros Hportfolio.
  pose proof (portfolio_files (banner W st)) as Hfiles. rewrite Hportfolio in Hfiles.
  assert (main W st =
          (say [LF +:+ "✗ ERROR: " +:+ str_exn W e;
                LF +:+ "The API may have changed or may be temporarily unavailable.";
                "Please verify the API endpoint at: https://fiscaldata.treasury.gov/api-documentation/"]
             st1, Raise e)) as Hmain.
  { enter_main st. rewrite run_bind, Hportfolio. rewrite !run_print, !say_say. reflexivity. }
  eexists. split_and!.
  - exact Hmain.
  - unfold script. by rewrite run_bind, Hmain.
  - exact Hfiles.
Qed.


End Driver.

(** ** The CSV writer *)








(** ** The run as a whole *)

(** C7. When the primary fetcher raises and the fallback fetcher raises too,
    the assembler raises the exception of the fallback fetcher, the driver
    raises it again, the script ends with it, and the files on disk are the
    ones there were: no CSV file is written. *)
Theorem both_sources_failing_ends_run_without_file
  (W : runtime) (st st1 st2 : state) (e1 e2 : exn) :
  fetch_treasury_securities W (banner W st) = (st1, Raise e1) →
  fetch_securities_from_treasurydirect W (falling_back W e1 st1) = (st2, Raise e2) →
  get_treasury_securities_portfolio W (banner W st) = (st2, Raise e2) ∧
  ∃ st', main W st = (st', Raise e2) ∧
         script W st = (st', Raise e2) ∧
         files st' = files st.
Proof.
  intros Hprimary Hfallback.
  assert (get_treasury_securities_portfolio W (banner W st) = (st2, Raise e2)) as Hportfolio.
  { rewrite (portfolio_when_primary_raises W _ st1 e1 Hprimary). by rewrite Hfallback. }
  split; [done|]. by apply (script_when_portfolio_raises W st st2 e2).
Qed.


(** ** Outside the envelope *)

(** A field that holds a comma is written between quotes. *)
Example csv_writerow_quotes_a_comma (cr : bool) :
  csv_writerow cr ["a"; "x,y"] = "a," +:+ String dquote ("x,y" +:+ String dquote LF).
Proof. by destruct cr. Qed.

(** A body that is no JSON object has no [get] method and cannot be
    searched for a key: the fallback fetcher raises [AttributeError] on an
    array, the primary fetcher [TypeError] on a number. *)
Example fallback_raises_on_an_array :
  snd (fetch_securities_from_treasurydirect
         (Demo.world Demo.not_found (Demo.answer 200 "[]" (inr (PyList [])))) Demo.fresh) =
  Raise (AttributeError (PyList [])).
Proof. reflexivity. Qed.

Example primary_raises_on_a_number :
  snd (fetch_treasury_securities
         (Demo.world (Demo.answer 200 "5" (inr (PyInt 5))) Demo.not_found) Demo.fresh) =
  Raise (TypeError (PyInt 5)).
Proof. reflexivity. Qed.

(** In the demo world [describe] refuses a table without columns, as pandas
    does: with an empty table the file is written, then the script ends with
    that exception. *)
Example empty_table_is_written_then_describe_raises :
  let run := script Demo.no_envelope Demo.fresh in
  files (fst run) !! output_file = Some LF ∧
  snd run = Raise (LibraryError
                     (LibError "ValueError" "Cannot describe a DataFrame without columns")).
Proof. split; reflexivity. Qed.

(** ** Where the statements stop *)

(** C3 as first stated fails on a body that is no object.  The primary source
    answers 200 with the number 5: the body has no [data] key and the status
    is 200, yet the exception is the [TypeError] of the membership test, not
    one the script raises itself. *)
Lemma primary_raises_iff_bad_status_or_no_key_counterexample :
  requests_get Demo.number_body (sent Demo.fresh) primary_request =
    inr (Demo.reply 200 "5" (inr (PyInt 5))) ∧
  ¬ has_key "data" (PyInt 5) ∧
  snd (fetch_treasury_securities Demo.number_body Demo.fresh) = Raise (TypeError (PyInt 5)) ∧
  ¬ ((∃ msg, snd (fetch_treasury_securities Demo.number_body Demo.fresh) =
             Raise (Exception msg)) ↔
     (status_code (Demo.reply 200 "5" (inr (PyInt 5))) ≠ 200 ∨ ¬ has_key "data" (PyInt 5))).
Proof.
  split_and!; [reflexivity|by intros []|reflexivity|].
  intros [_ Hraises]. destruct Hraises as [msg Hmsg].
  - right. by intros [].
  - discriminate Hmsg.
Qed.

(** C5 as first stated fails on a body that is no object.  The fallback
    source answers 200 with an empty array: the body has no [data] key, yet
    the fetcher raises [AttributeError] and returns no table. *)
Lemma fallback_without_key_returns_empty_counterexample :
  requests_get Demo.arrays (sent Demo.fresh) fallback_request =
    inr (Demo.reply 200 "[]" (inr (PyList []))) ∧
  ¬ has_key "data" (PyList []) ∧
  fetch_securities_from_treasurydirect Demo.arrays Demo.fresh =
    (fallback_started Demo.fresh, Raise (AttributeError (PyList []))) ∧
  ¬ (∃ st' df, fetch_securities_from_treasurydirect Demo.arrays Demo.fresh = (st', Ok df)).
Proof.
  split_and!; [reflexivity|by intros []|reflexivity|].
  intros (st' & df & Hreturns). discriminate Hreturns.
Qed.


(** ** The statements at work in a concrete world *)

(** The primary source is down and the fallback answers two sales: the
    assembler returns the two sales after one request to each source. *)
Lemma assembler_returns_primary_or_falls_back_once_witness :
  ∃ st', get_treasury_securities_portfolio Demo.primary_down Demo.fresh =
         (st', Ok (frame_of_records Demo.primary_down Demo.sales)) ∧
         sent st' = [primary_request; fallback_request].
Proof.
  exact (assembler_returns_primary_or_falls_back_once Demo.primary_down Demo.fresh).
Defined.

(** The primary source answers one rate: one record, two columns. *)
Lemma primary_returns_one_record_per_element_witness :
  ∃ df, fetch_treasury_securities Demo.primary_up Demo.fresh =
        (primary_started Demo.fresh, Ok df) ∧
        len df = 1 ∧
        columns df = ["record_date"; "avg_interest_rate_amt"] ∧
        NoDup (columns df) ∧
        (∀ k, k ∈ columns df ↔ ∃ rec, rec ∈ Demo.rates ∧ k ∈ dict_keys rec) ∧
        (∀ i rec, Demo.rates !! i = Some rec →
           ∃ row, rows df !! i = Some row ∧
                  length row = length (columns df) ∧
                  ∀ j k, columns df !! j = Some k →
                         (dict_lookup rec k = None → row !! j = Some None) ∧
                         (∀ s, dict_lookup rec k = Some (PyStr s) →
                               row !! j = Some (Some (PyStr s)))).
Proof.
  exact (primary_returns_one_record_per_element Demo.primary_up Demo.fresh
           (Demo.reply 200 "<rates>" (inr Demo.rates_body))
           [("data", PyList (PyDict <$> Demo.rates))] Demo.rates
           eq_refl eq_refl eq_refl eq_refl).
Defined.

(** A 200 answer without the key, and a 404 answer: the two messages. *)
Lemma primary_raises_iff_bad_status_or_no_key_witness :
  snd (fetch_treasury_securities Demo.no_envelope Demo.fresh) =
  Raise (Exception "No data returned from API. Response: <value>") ∧
  snd (fetch_treasury_securities Demo.both_down Demo.fresh) =
  Raise (Exception "API request failed with status 404: Not Found").
Proof.
  split.
  - refine (proj2 (proj2 (primary_raises_iff_bad_status_or_no_key Demo.no_envelope Demo.fresh
                            (Demo.reply 200 "<foo>" (inr (PyDict Demo.foo))) eq_refl _))
                  Demo.foo eq_refl eq_refl eq_refl).
    intros _. exists Demo.foo. reflexivity.
  - refine (proj1 (proj2 (primary_raises_iff_bad_status_or_no_key Demo.both_down Demo.fresh
                            (Demo.reply 404 "Not Found" Demo.not_json) eq_refl _)) _).
    + intros Hstatus. discriminate Hstatus.
    + intros Hstatus. discriminate Hstatus.
Defined.

(** Both sources answer 200 without the key: the primary raises, the
    fallback is asked once and its empty table is what comes back. *)
Lemma missing_key_is_failure_and_triggers_fallback_witness :
  ∃ e, fetch_treasury_securities Demo.no_envelope Demo.fresh =
       (primary_started Demo.fresh, Raise e) ∧
       let (st2, outcome) :=
         fetch_securities_from_treasurydirect Demo.no_envelope
           (falling_back Demo.no_envelope e (primary_started Demo.fresh)) in
       ∃ st', get_treasury_securities_portfolio Demo.no_envelope Demo.fresh = (st', outcome) ∧
              sent st' = sent Demo.fresh ++ [primary_request; fallback_request].
Proof.
  apply (missing_key_is_failure_and_triggers_fallback Demo.no_envelope Demo.fresh
           (Demo.reply 200 "<foo>" (inr (PyDict Demo.foo))) (PyDict Demo.foo));
    [reflexivity|reflexivity|reflexivity|].
  intros [v Hv]. discriminate Hv.
Defined.

(** The fallback answers 200 without the key: the empty table. *)
Lemma fallback_without_key_returns_empty_witness :
  ∃ df, fetch_securities_from_treasurydirect Demo.no_envelope Demo.fresh =
        (fallback_started Demo.fresh, Ok df) ∧
        len df = 0 ∧ rows df = [] ∧ columns df = [].
Proof.
  exact (fallback_without_key_returns_empty Demo.no_envelope Demo.fresh
           (Demo.reply 200 "<foo>" (inr (PyDict Demo.foo))) Demo.foo
           eq_refl eq_refl eq_refl eq_refl).
Defined.

(** The fallback answers 503 with a text: the message holds the code only. *)
Lemma fallback_bad_status_carries_code_only_witness :
  fetch_securities_from_treasurydirect Demo.both_down Demo.fresh =
  (fallback_started Demo.fresh, Raise (Exception "API request failed: 503")).
Proof.
  apply (fallback_bad_status_carries_code_only Demo.both_down Demo.fresh
           (Demo.reply 503 "Service Unavailable" Demo.not_json)); [reflexivity|].
  intros Hstatus. discriminate Hstatus.
Defined.

(** Both sources are down: the script ends with the fallback's exception
    and the disk stays empty. *)
Lemma both_sources_failing_ends_run_without_file_witness :
  ∃ st', script Demo.both_down Demo.fresh =
         (st', Raise (Exception "API request failed: 503")) ∧
         files st' = ∅.
Proof.
  destruct (both_sources_failing_ends_run_without_file Demo.both_down Demo.fresh
              (primary_started (banner Demo.both_down Demo.fresh))
              (fallback_started
                 (falling_back Demo.both_down
                    (Exception "API request failed with status 404: Not Found")
                    (primary_started (banner Demo.both_down Demo.fresh))))
              (Exception "API request failed with status 404: Not Found")
              (Exception "API request failed: 503")
              eq_refl eq_refl) as [_ (st' & _ & Hscript & Hfiles)].
  exists st'. split; [exact Hscript | exact Hfiles].
Defined.


(** The fallback answers two sales with different keys: two records, three
    columns in the order met. *)
Lemma fallback_returns_one_record_per_element_witness :
  ∃ df, fetch_securities_from_treasurydirect Demo.primary_down Demo.fresh =
        (fallback_started Demo.fresh, Ok df) ∧
        len df = 2 ∧
        columns df = ["record_date"; "security_desc"; "net_sales_amt"] ∧
        NoDup (columns df) ∧
        (∀ k, k ∈ columns df ↔ ∃ rec, rec ∈ Demo.sales ∧ k ∈ dict_keys rec) ∧
        (∀ i rec, Demo.sales !! i = Some rec →
           ∃ row, rows df !! i = Some row ∧
                  length row = length (columns df) ∧
                  ∀ j k, columns df !! j = Some k →
                         (dict_lookup rec k = None → row !! j = Some None) ∧
                         (∀ s, dict_lookup rec k = Some (PyStr s) →
                               row !! j = Some (Some (PyStr s)))).
Proof.
  exact (fallback_returns_one_record_per_element Demo.primary_down Demo.fresh
           (Demo.reply 200 "<sales>" (inr Demo.sales_body))
           [("meta", PyNone); ("data", PyList (PyDict <$> Demo.sales))] Demo.sales
           eq_refl eq_refl eq_refl eq_refl).
Defined.

(** A 404 answer whose body does hold the key: the status decides. *)
Lemma primary_checks_status_before_body_witness :
  snd (fetch_treasury_securities Demo.refused_with_data Demo.fresh) =
  Raise (Exception "API request failed with status 404: <rates>").
Proof.
  apply (proj1 (primary_checks_status_before_body Demo.refused_with_data Demo.fresh
                  (Demo.reply 404 "<rates>" (inr Demo.rates_body)) eq_refl)).
  intros Hstatus. discriminate Hstatus.
Defined.

(** * Beyond the contracts *)

(** ** What a fetcher does to the world, and what it lets through *)

Section FetcherEffects.

Variable W : runtime.

Implicit Types (st : state) (r : response) (d : dict) (err : lib_error).

Ltac ask :=
  unfold fetch_treasury_securities, fetch_securities_from_treasurydirect;
  rewrite ?run_print, run_bind; unfold get at 1; rewrite ?say_say;
  fold primary_request; fold fallback_request;
  change (sent (say ?l ?st)) with (sent st).

Ltac read Hstatus :=
  rewrite Hstatus; change (negb (200 =? 200)) with false; cbv iota; rewrite run_lift.

(** X1. Whatever the network answers and however the call ends, a fetcher
    sends its one request, once, prints its own lines and leaves the files
    alone: there is no retry and no second page. *)
Theorem each_fetcher_sends_its_request_once st :
  (let st' := fst (fetch_treasury_securities W st) in
   sent st' = sent st ++ [primary_request] ∧
   stdout st' = stdout st ++ ["Fetching data from US Treasury Fiscal Data API...";
                              "URL: " +:+ primary_endpoint] ∧
   files st' = files st) ∧
  (let st' := fst (fetch_securities_from_treasurydirect W st) in
   sent st' = sent st ++ [fallback_request] ∧
   stdout st' = stdout st ++ [LF +:+ "Fetching treasury auction data..."] ∧
   files st' = files st).
Proof.
  cbv zeta.
  rewrite fetch_treasury_securities_state, fetch_securities_from_treasurydirect_state.
  done.
Qed.

(** X2. The primary fetcher wraps nothing: an exception of the transport, of
    the JSON decoder (under status 200) or of the table constructor (under
    status 200, on the value found under [data]) is the exception the fetcher
    raises. *)
Theorem primary_lets_library_errors_through st :
  (∀ err, requests_get W (sent st) primary_request = inl err →
          snd (fetch_treasury_securities W st) = Raise (LibraryError err)) ∧
  (∀ r err, requests_get W (sent st) primary_request = inr r →
            status_code r = 200 → json r = inl err →
            snd (fetch_treasury_securities W st) = Raise (LibraryError err)) ∧
  (∀ r d v e, requests_get W (sent st) primary_request = inr r →
              status_code r = 200 → json r = inr (PyDict d) →
              dict_lookup d "data" = Some v → pd_DataFrame W v = Raise e →
              snd (fetch_treasury_securities W st) = Raise e).
Proof.
  split_and!.
  - intros err Hget. ask. by rewrite Hget.
  - intros r err Hget Hstatus Hjson. ask. rewrite Hget. cbn [from_lib].
    read Hstatus. by rewrite Hjson.
  - intros r d v e Hget Hstatus Hjson Hdata Hframe.
    rewrite (fetch_treasury_securities_key W st r d v) by done. done.
Qed.

(** X3. Nor does the fallback fetcher. *)
Theorem fallback_lets_library_errors_through st :
  (∀ err, requests_get W (sent st) fallback_request = inl err →
          snd (fetch_securities_from_treasurydirect W st) = Raise (LibraryError err)) ∧
  (∀ r err, requests_get W (sent st) fallback_request = inr r →
            status_code r = 200 → json r = inl err →
            snd (fetch_securities_from_treasurydirect W st) = Raise (LibraryError err)) ∧
  (∀ r d v e, requests_get W (sent st) fallback_request = inr r →
              status_code r = 200 → json r = inr (PyDict d) →
              dict_lookup d "data" = Some v → pd_DataFrame W v = Raise e →
              snd (fetch_securities_from_treasurydirect W st) = Raise e).
Proof.
  split_and!.
  - intros err Hget. ask. by rewrite Hget.
  - intros r err Hget Hstatus Hjson. ask. rewrite Hget. cbn [from_lib].
    read Hstatus. by rewrite Hjson.
  - intros r d v e Hget Hstatus Hjson Hdata Hframe.
    rewrite (fetch_securities_from_treasurydirect_object W st r d) by done.
    by rewrite Hdata.
Qed.

(** X4. Under status 200 a parsed body that is no JSON object makes the
    fallback fetcher raise [AttributeError] on that body: only an object has
    the [get] method, and no empty table is made up. *)
Theorem fallback_raises_on_a_body_that_is_no_object st r (body : pyval) :
  requests_get W (sent st) fallback_request = inr r →
  status_code r = 200 →
  json r = inr body →
  (∀ d, body ≠ PyDict d) →
  fetch_securities_from_treasurydirect W st = (fallback_started st, Raise (AttributeError body)).
Proof.
  intros Hget Hstatus Hjson Hbody. ask. rewrite Hget. cbn [from_lib].
  read Hstatus. rewrite Hjson. cbn [from_lib]. rewrite run_lift.
  destruct body; try done. by destruct (Hbody entries).
Qed.

(** [str_contains] finds the needle exactly when the haystack is
    something, then the needle, then something. *)
Lemma append_String (c : ascii) (s t : string) : String c s +:+ t = String c (s +:+ t).
Proof. reflexivity. Qed.

Lemma prefix_spec (p s : string) :
  String.prefix p s = true ↔ ∃ rest, s = p +:+ rest.
Proof.
  revert s. induction p as [|c p IH]; intros s.
  - split; [by exists s|]. by destruct s.
  - destruct s as [|c' s]; simpl.
    + split; [done|]. intros [rest Hrest]. by rewrite append_String in Hrest.
    + destruct (ascii_dec c c') as [->|Hc].
      * rewrite IH. split; intros [rest Hrest]; exists rest;
          rewrite append_String in *; congruence.
      * split; [done|]. intros [rest Hrest]. rewrite append_String in Hrest. congruence.
Qed.

Lemma str_contains_spec (needle hay : string) :
  str_contains needle hay = true ↔ ∃ before after, hay = before +:+ needle +:+ after.
Proof.
  induction hay as [|c hay IH].
  - change (str_contains needle EmptyString) with (String.prefix needle EmptyString || false).
    rewrite orb_false_r, prefix_spec. split.
    + intros [rest Hrest]. by exists EmptyString, rest.
    + intros (before & after & Hhay). destruct before; [|done].
      destruct needle; [|done]. by exists EmptyString.
  - change (str_contains needle (String c hay))
      with (String.prefix needle (String c hay) || str_contains needle hay).
    rewrite orb_true_iff, prefix_spec, IH. split.
    + intros [[rest Hrest]|(before & after & Hhay)].
      * by exists EmptyString, rest.
      * exists (String c before), after. by rewrite append_String, Hhay.
    + intros (before & after & Hhay). destruct before as [|c' before].
      * left. by exists after.
      * right. exists before, after. rewrite append_String in Hhay. congruence.
Qed.

Lemma existsb_is_data (items : list pyval) :
  existsb (fun x => match x with PyStr s => String.eqb "data" s | _ => false end) items = true
  ↔ PyStr "data" ∈ items.
Proof.
  rewrite existsb_exists. split.
  - intros (x & Hx & Heq). destruct x; try done.
    apply String.eqb_eq in Heq as <-. by apply list_elem_of_In.
  - intros Hin. exists (PyStr "data"). split; [by apply list_elem_of_In|done].
Qed.

Lemma fetch_treasury_securities_parsed st r (body : pyval) :
  requests_get W (sent st) primary_request = inr r →
  status_code r = 200 →
  json r = inr body →
  fetch_treasury_securities W st =
  (primary_started st,
   match py_in "data" body with
   | Raise e => Raise e
   | Ok has =>
       if negb has
       then Raise (Exception ("No data returned from API. Response: " +:+ py_str W body))
       else match py_getitem body "data" with
            | Ok v => pd_DataFrame W v
            | Raise e => Raise e
            end
   end).
Proof.
  intros Hget Hstatus Hjson. ask. rewrite Hget. cbn [from_lib].
  read Hstatus. rewrite Hjson. cbn [from_lib]. rewrite run_lift.
  destruct (py_in "data" body) as [has|e]; [|done].
  destruct (negb has); [done|]. rewrite run_lift.
  by destruct (py_getitem body "data").
Qed.

(** X5. Under status 200 a parsed body that is no JSON object makes the
    primary fetcher raise as Python's [in] and indexing have it.  [None], a
    boolean or a number cannot be searched: [TypeError].  An array is
    searched for an item equal to the key and a string for the key as a
    substring: when it is not found the exception is the script's own about
    missing data, and when it is found the body cannot be indexed by the
    key: [TypeError]. *)
Theorem primary_on_a_body_that_is_no_object st r (body : pyval) :
  requests_get W (sent st) primary_request = inr r →
  status_code r = 200 →
  json r = inr body →
  let outcome := snd (fetch_treasury_securities W st) in
  let no_data :=
    Raise (Exception ("No data returned from API. Response: " +:+ py_str W body)) in
  match body with
  | PyDict _ => True
  | PyList items =>
      (PyStr "data" ∈ items → outcome = Raise (TypeError body)) ∧
      (PyStr "data" ∉ items → outcome = no_data)
  | PyStr s =>
      ((∃ before after, s = before +:+ "data" +:+ after) → outcome = Raise (TypeError body)) ∧
      (¬ (∃ before after, s = before +:+ "data" +:+ after) → outcome = no_data)
  | _ => outcome = Raise (TypeError body)
  end.
Proof.
  intros Hget Hstatus Hjson outcome no_data. subst outcome no_data.
  rewrite (fetch_treasury_securities_parsed st r body Hget Hstatus Hjson). cbn [snd].
  destruct body as [| | | |s|items|d]; cbn [py_in py_getitem]; try done.
  - rewrite <- str_contains_spec. by destruct (str_contains "data" s).
  - rewrite <- existsb_is_data. by destruct (existsb _ items).
Qed.

End FetcherEffects.

(** ** What the assembler prints and what it returns, from the answers *)

Section AssemblerRuns.

Variable W : runtime.

Implicit Types (st : state) (r : response) (d : dict) (ds : list dict) (e : exn).

(** X6. The console of a run of the assembler: the two lines of the primary
    fetcher; when that one returns, the count of its records; when it
    raises, the exception's text, the notice of the second attempt, the line
    of the fallback fetcher and, when that one returns, the count of its
    records.  The count printed is the length of the table returned. *)
Theorem assembler_console st :
  let primary_lines :=
    ["Fetching data from US Treasury Fiscal Data API..."; "URL: " +:+ primary_endpoint] in
  let printed := stdout (fst (get_treasury_securities_portfolio W st)) in
  match snd (fetch_treasury_securities W st) with
  | Ok df =>
      printed = stdout st ++ primary_lines ++
                ["✓ Retrieved " +:+ str_int (len df) +:+ " records from Treasury API"]
  | Raise e =>
      let fallback_lines :=
        ["Primary API failed: " +:+ str_exn W e; "Trying alternative endpoint...";
         LF +:+ "Fetching treasury auction data..."] in
      match snd (fetch_securities_from_treasurydirect W
                   (falling_back W e (primary_started st))) with
      | Ok df =>
          printed = stdout st ++ primary_lines ++ fallback_lines ++
                    ["✓ Retrieved " +:+ str_int (len df) +:+ " records from alternative source"]
      | Raise _ => printed = stdout st ++ primary_lines ++ fallback_lines
      end
  end.
Proof.
  cbv zeta.
  pose proof (fetch_treasury_securities_state W st) as Hst1.
  destruct (fetch_treasury_securities W st) as [st1 [df|e]] eqn:Hprimary;
    simpl in Hst1; subst st1; cbn [snd].
  - rewrite (portfolio_when_primary_returns W st _ df Hprimary). simpl.
    by rewrite <- !app_assoc.
  - rewrite (portfolio_when_primary_raises W st _ e Hprimary).
    pose proof (fetch_securities_from_treasurydirect_state W
                  (falling_back W e (primary_started st))) as Hst2.
    destruct (fetch_securities_from_treasurydirect W _) as [st2 [df|e']];
      simpl in Hst2; subst st2; simpl; by rewrite <- !app_assoc.
Qed.

(** X7. From the answers of the network: when the primary source answers
    with a status other than 200 and the fallback source, asked next,
    answers 200 with an object whose [data] is an array of [N] objects, the
    assembler returns the table of those [N] records, after one request to
    each source. *)
Theorem bad_status_then_fallback_records st (r1 r2 : response) d ds :
  requests_get W (sent st) primary_request = inr r1 →
  status_code r1 ≠ 200 →
  requests_get W (sent st ++ [primary_request]) fallback_request = inr r2 →
  status_code r2 = 200 →
  json r2 = inr (PyDict d) →
  dict_lookup d "data" = Some (PyList (PyDict <$> ds)) →
  ∃ st', get_treasury_securities_portfolio W st = (st', Ok (frame_of_records W ds)) ∧
         len (frame_of_records W ds) = Z.of_nat (length ds) ∧
         sent st' = sent st ++ [primary_request; fallback_request].
Proof.
  intros Hget1 Hstatus1 Hget2 Hstatus2 Hjson Hdata.
  pose proof (fetch_treasury_securities_not_200 W st r1 Hget1 Hstatus1) as Hprimary.
  rewrite (portfolio_when_primary_raises W st _ _ Hprimary).
  rewrite (fetch_securities_from_treasurydirect_object W _ r2 d) by done.
  rewrite Hdata. simpl. rewrite as_records_dicts.
  eexists. split_and!; [done| |].
  - unfold len. simpl. by rewrite length_fmap.
  - simpl. by rewrite <- app_assoc.
Qed.

End AssemblerRuns.

(** ** The script from start to end *)

Section ScriptRuns.

Variable W : runtime.

Implicit Types (st : state) (df : DataFrame) (e : exn).

Ltac start st :=
  unfold script; rewrite ?(run_bind (main W)); unfold main;
  rewrite !run_print, !say_say; cbn [app]; fold (banner W st); unfold try_except at 1.

(** The lines of the main block around the writing of the file, and the
    three lines of its handler. *)
Lemma script_when_portfolio_returns_run st st1 df :
  get_treasury_securities_portfolio W (banner W st) = (st1, Ok df) →
  let written :=
    say [LF +:+ "✓ Saved raw data to: " +:+ output_file; LF +:+ rule; "DATA SUMMARY"; rule]
      (fst (to_csv W df output_file
              (say [LF +:+ "Data Retrieved Successfully!";
                    "Total records: " +:+ str_int (len df);
                    LF +:+ "Columns available: " +:+ py_str W (PyList (PyStr <$> columns df));
                    LF +:+ "First few records:";
                    head_str W df] st1))) in
  script W st =
  match describe_str W df with
  | inr summary => (say [summary; LF +:+ rule; "SCRIPT COMPLETE"; rule] written, Ok tt)
  | inl err =>
      (say [LF +:+ "✗ ERROR: " +:+ str_exn W (LibraryError err);
            LF +:+ "The API may have changed or may be temporarily unavailable.";
            "Please verify the API endpoint at: https://fiscaldata.treasury.gov/api-documentation/"]
         written,
       Raise (LibraryError err))
  end.
Proof.
  intros Hportfolio. cbv zeta.
  start st. rewrite run_bind, Hportfolio. rewrite !run_print, !say_say. cbn [app].
  rewrite run_bind. unfold to_csv at 1. rewrite !run_print, !say_say. cbn [app].
  rewrite run_lift. unfold to_csv.
  destruct (describe_str W df) as [err|summary]; cbn [from_lib].
  - unfold mbind, M_bind, print, raise. cbv beta iota. rewrite !say_say. reflexivity.
  - unfold mbind, M_bind, print, raise. cbv beta iota. rewrite !say_say. reflexivity.
Qed.

Lemma script_when_portfolio_raises_run st st1 e :
  get_treasury_securities_portfolio W (banner W st) = (st1, Raise e) →
  script W st =
  (say [LF +:+ "✗ ERROR: " +:+ str_exn W e;
        LF +:+ "The API may have changed or may be temporarily unavailable.";
        "Please verify the API endpoint at: https://fiscaldata.treasury.gov/api-documentation/"]
     st1,
   Raise e).
Proof.
  intros Hportfolio.
  start st. rewrite run_bind, Hportfolio. rewrite !run_print, !say_say. reflexivity.
Qed.

(** The assembler leaves the files alone and sends what its fetchers send. *)
Lemma portfolio_sent st :
  sent (fst (get_treasury_securities_portfolio W st)) =
  match snd (fetch_treasury_securities W st) with
  | Ok _ => sent st ++ [primary_request]
  | Raise _ => sent st ++ [primary_request; fallback_request]
  end.
Proof.
  pose proof (fetch_treasury_securities_state W st) as Hst1.
  destruct (fetch_treasury_securities W st) as [st1 [df|e]] eqn:Hprimary;
    simpl in Hst1; subst st1; cbn [snd].
  - by rewrite (portfolio_when_primary_returns W st _ df Hprimary).
  - rewrite (portfolio_when_primary_raises W st _ e Hprimary).
    pose proof (fetch_securities_from_treasurydirect_state W
                  (falling_back W e (primary_started st))) as Hst2.
    destruct (fetch_securities_from_treasurydirect W _) as [st2 [df|e']];
      simpl in Hst2; subst st2; apply sent_after_fallback.
Qed.

Lemma fetch_securities_from_treasurydirect_not_200 st (r : response) :
  requests_get W (sent st) fallback_request = inr r →
  status_code r ≠ 200 →
  fetch_securities_from_treasurydirect W st =
  (fallback_started st,
   Raise (Exception ("API request failed: " +:+ str_int (status_code r)))).
Proof.
  intros Hget Hstatus. unfold fetch_securities_from_treasurydirect.
  rewrite run_print, run_bind. unfold get at 1. fold fallback_request.
  change (sent (say _ st)) with (sent st). rewrite Hget. cbn [from_lib].
  by destruct (Z.eqb_spec (status_code r) 200).
Qed.

(** X8. From the answers of the network: when both sources answer with a
    status other than 200, the script ends with the exception of the
    fallback fetcher, which carries the second status, after one request to
    each source, and the files are the ones there were. *)
Theorem two_bad_statuses_end_the_run st (r1 r2 : response) :
  requests_get W (sent st) primary_request = inr r1 →
  status_code r1 ≠ 200 →
  requests_get W (sent st ++ [primary_request]) fallback_request = inr r2 →
  status_code r2 ≠ 200 →
  ∃ st', script W st =
         (st', Raise (Exception ("API request failed: " +:+ str_int (status_code r2)))) ∧
         sent st' = sent st ++ [primary_request; fallback_request] ∧
         files st' = files st.
Proof.
  intros Hget1 Hstatus1 Hget2 Hstatus2.
  pose proof (fetch_treasury_securities_not_200 W (banner W st) r1 Hget1 Hstatus1) as Hprimary.
  pose proof (portfolio_when_primary_raises W _ _ _ Hprimary) as Hportfolio.
  rewrite (fetch_securities_from_treasurydirect_not_200
             (falling_back W _ (primary_started (banner W st))) r2 Hget2 Hstatus2)
    in Hportfolio.
  rewrite (script_when_portfolio_raises_run st _ _ Hportfolio).
  eexists. split_and!; [done| |done].
  simpl. by rewrite <- app_assoc.
Qed.

(** X9. A run of the script sends one request or two, never more: the
    primary one, and after it the fallback one exactly when the primary
    fetcher raised. *)
Theorem script_sends_one_request_or_two st :
  sent (fst (script W st)) =
  match snd (fetch_treasury_securities W (banner W st)) with
  | Ok _ => sent st ++ [primary_request]
  | Raise _ => sent st ++ [primary_request; fallback_request]
  end.
Proof.
  transitivity (sent (fst (get_treasury_securities_portfolio W (banner W st))));
    [|exact (portfolio_sent (banner W st))].
  destruct (get_treasury_securities_portfolio W (banner W st)) as [st1 [df|e]] eqn:Hportfolio.
  - rewrite (script_when_portfolio_returns_run st st1 df Hportfolio).
    by destruct (describe_str W df).
  - by rewrite (script_when_portfolio_raises_run st st1 e Hportfolio).
Qed.

(** X10. A run of the script touches one file at most: when the assembler
    returns a table the output file holds the text of that table, whatever
    it held before, and when the assembler raises no file changes.  A file
    of any other name is never created, changed or removed. *)
Theorem script_writes_the_output_file_or_nothing st :
  files (fst (script W st)) =
  match snd (get_treasury_securities_portfolio W (banner W st)) with
  | Ok df => <[output_file := csv_text W df]> (files st)
  | Raise _ => files st
  end ∧
  ∀ path, path ≠ output_file → files (fst (script W st)) !! path = files st !! path.
Proof.
  pose proof (portfolio_files W (banner W st)) as Hfiles.
  destruct (get_treasury_securities_portfolio W (banner W st)) as [st1 [df|e]] eqn:Hportfolio;
    simpl in Hfiles; cbn [snd].
  - rewrite (script_when_portfolio_returns_run st st1 df Hportfolio).
    split.
    + destruct (describe_str W df); simpl; by rewrite Hfiles.
    + intros path Hpath. destruct (describe_str W df); simpl;
        by rewrite Hfiles, lookup_insert_ne.
  - rewrite (script_when_portfolio_raises_run st st1 e Hportfolio). simpl.
    by rewrite Hfiles.
Qed.

(** X11. How a run of the script ends: with the exception of the assembler
    when it raises; with the exception of [describe] when the assembler
    returns a table that [describe] refuses, and then the file has been
    written all the same; and well in the one case left. *)
Theorem script_outcome st :
  snd (script W st) =
  match snd (get_treasury_securities_portfolio W (banner W st)) with
  | Raise e => Raise e
  | Ok df =>
      match describe_str W df with
      | inl err => Raise (LibraryError err)
      | inr _ => Ok tt
      end
  end ∧
  ∀ df err,
    snd (get_treasury_securities_portfolio W (banner W st)) = Ok df →
    describe_str W df = inl err →
    snd (script W st) = Raise (LibraryError err) ∧
    files (fst (script W st)) !! output_file = Some (csv_text W df).
Proof.
  destruct (get_treasury_securities_portfolio W (banner W st)) as [st1 [df|e]] eqn:Hportfolio;
    cbn [snd].
  - rewrite (script_when_portfolio_returns_run st st1 df Hportfolio). split.
    + by destruct (describe_str W df).
    + intros df' err [= <-] Hdescribe. rewrite Hdescribe. simpl.
      by rewrite lookup_insert_eq.
  - rewrite (script_when_portfolio_raises_run st st1 e Hportfolio). by split.
Qed.

(** X12. The last lines of the console tell how the run ended: the closing
    banner after a run that ends well, and after one that ends with an
    exception the three lines of the handler, the first of which holds the
    text of that exception; the closing banner is then not printed. *)
Theorem console_ends_with_banner_or_diagnostic st :
  let printed := stdout (fst (script W st)) in
  match snd (script W st) with
  | Ok _ => ∃ earlier, printed = earlier ++ [LF +:+ rule; "SCRIPT COMPLETE"; rule]
  | Raise e =>
      ∃ earlier,
        printed = earlier ++
          [LF +:+ "✗ ERROR: " +:+ str_exn W e;
           LF +:+ "The API may have changed or may be temporarily unavailable.";
           "Please verify the API endpoint at: https://fiscaldata.treasury.gov/api-documentation/"]
  end.
Proof.
  cbv zeta.
  destruct (get_treasury_securities_portfolio W (banner W st)) as [st1 [df|e]] eqn:Hportfolio.
  - rewrite (script_when_portfolio_returns_run st st1 df Hportfolio).
    destruct (describe_str W df) as [err|summary]; cbn [fst snd].
    + eexists. unfold say at 1. cbn [stdout]. reflexivity.
    + eexists. unfold say at 1. cbn [stdout].
      change [summary; LF +:+ rule; "SCRIPT COMPLETE"; rule]
        with ([summary] ++ [LF +:+ rule; "SCRIPT COMPLETE"; rule]).
      rewrite app_assoc. reflexivity.
  - rewrite (script_when_portfolio_raises_run st st1 e Hportfolio). cbn [fst snd].
    eexists. unfold say at 1. cbn [stdout]. reflexivity.
Qed.

(** X13. When the primary fetcher raises and the fallback source answers 200
    with an object that has no [data] key, the run goes on with the empty
    table: the output file is overwritten with a header line that names no
    column and no row after it. *)
Theorem missing_key_in_fallback_blanks_the_file
  st st1 e (r : response) (d : dict) :
  fetch_treasury_securities W (banner W st) = (st1, Raise e) →
  requests_get W (sent st ++ [primary_request]) fallback_request = inr r →
  status_code r = 200 →
  json r = inr (PyDict d) →
  dict_lookup d "data" = None →
  files (fst (script W st)) = <[output_file := LF]> (files st).
Proof.
  intros Hprimary Hget Hstatus Hjson Hkey.
  pose proof (fetch_treasury_securities_state W (banner W st)) as Hst1.
  rewrite Hprimary in Hst1. simpl in Hst1. subst st1.
  pose proof (portfolio_when_primary_raises W _ _ _ Hprimary) as Hportfolio.
  rewrite (fetch_securities_from_treasurydirect_object W _ r d) in Hportfolio by done.
  rewrite Hkey in Hportfolio. simpl in Hportfolio.
  rewrite (script_when_portfolio_returns_run st _ _ Hportfolio).
  by destruct (describe_str W _).
Qed.

End ScriptRuns.

(** ** The shape of a table of records *)

Lemma dict_lookup_None (d : dict) (k : string) :
  dict_lookup d k = None ↔ k ∉ dict_keys d.
Proof.
  induction d as [|[k' v] d IH]; simpl.
  - split; [intros _; apply not_elem_of_nil|done].
  - rewrite not_elem_of_cons. simpl. destruct (String.eqb_spec k' k) as [->|Hk].
    + split; [done|]. by intros [? _].
    + rewrite IH. split; [by split|by intros [_ ?]].
Qed.

(** X14. The table [pd.DataFrame] builds from an array of objects is
    rectangular: one row per object and in each row one cell per column, so
    that each row of the CSV text is made of as many fields as the header.
    Where an object lacks the key of a column the cell is empty, and where
    it holds a string the cell holds that string, which is the field handed
    to the row writer. *)
Theorem table_of_records_is_rectangular (W : runtime) (ds : list dict) (df : DataFrame) :
  pd_DataFrame W (PyList (PyDict <$> ds)) = Ok df →
  length (rows df) = length ds ∧
  Forall (fun row => length row = length (columns df)) (rows df) ∧
  Forall (fun row => length (imap (csv_cell W df) row) = length (columns df)) (rows df) ∧
  ∀ i j rec k,
    ds !! i = Some rec → columns df !! j = Some k →
    ∃ row, rows df !! i = Some row ∧
           (k ∉ dict_keys rec → row !! j = Some None) ∧
           (∀ s, dict_lookup rec k = Some (PyStr s) →
                 row !! j = Some (Some (PyStr s)) ∧
                 imap (csv_cell W df) row !! j = Some s).
Proof.
  unfold pd_DataFrame. rewrite as_records_dicts. intros [= <-]. simpl.
  assert (Forall (fun row => length row = length (union_keys ds))
            (row_of_record W ds (union_keys ds) <$> ds)) as Hrows.
  { apply Forall_fmap, Forall_forall. intros rec _. simpl.
    unfold row_of_record. by rewrite length_fmap. }
  split_and!.
  - by rewrite length_fmap.
  - exact Hrows.
  - eapply Forall_impl; [exact Hrows|]. intros row Hrow. simpl in *.
    by rewrite length_imap.
  - intros i j rec k Hi Hj. exists (row_of_record W ds (union_keys ds) rec).
    assert (row_of_record W ds (union_keys ds) rec !! j = Some (cell_of_record W ds rec k))
      as Hcell by (unfold row_of_record; by rewrite list_lookup_fmap, Hj).
    split_and!.
    + by rewrite list_lookup_fmap, Hi.
    + intros Hk%dict_lookup_None. etrans; [exact Hcell|].
      unfold cell_of_record. by rewrite Hk.
    + intros s Hs.
      assert (cell_of_record W ds rec k = Some (PyStr s)) as Hstr
        by (unfold cell_of_record; by rewrite Hs).
      split.
      * etrans; [exact Hcell|]. by rewrite Hstr.
      * rewrite list_lookup_imap. etrans; [apply (f_equal (fmap _) Hcell)|].
        simpl. by rewrite Hstr.
Qed.

(** ** These statements at work in a concrete world *)

(** No network, a page that is no JSON, a number under [data]: the primary
    fetcher raises what the library raised. *)
Lemma primary_lets_library_errors_through_witness :
  snd (fetch_treasury_securities Demo.offline Demo.fresh) =
  Raise (LibraryError Demo.unreachable) ∧
  snd (fetch_treasury_securities Demo.garbled Demo.fresh) =
  Raise (LibraryError (LibError "JSONDecodeError" "Expecting value: line 1 column 1 (char 0)")) ∧
  snd (fetch_treasury_securities Demo.scalar_data Demo.fresh) =
  Raise (LibraryError (LibError "ValueError" "DataFrame constructor not properly called!")).
Proof.
  split_and!.
  - exact (proj1 (primary_lets_library_errors_through Demo.offline Demo.fresh)
             Demo.unreachable eq_refl).
  - exact (proj1 (proj2 (primary_lets_library_errors_through Demo.garbled Demo.fresh))
             (Demo.reply 200 "<html>" Demo.not_json) _ eq_refl eq_refl eq_refl).
  - exact (proj2 (proj2 (primary_lets_library_errors_through Demo.scalar_data Demo.fresh))
             (Demo.reply 200 "<5>" (inr (PyDict [("data", PyInt 5)])))
             [("data", PyInt 5)] (PyInt 5) _ eq_refl eq_refl eq_refl eq_refl eq_refl).
Defined.

Lemma fallback_lets_library_errors_through_witness :
  snd (fetch_securities_from_treasurydirect Demo.offline Demo.fresh) =
  Raise (LibraryError Demo.unreachable) ∧
  snd (fetch_securities_from_treasurydirect Demo.garbled Demo.fresh) =
  Raise (LibraryError (LibError "JSONDecodeError" "Expecting value: line 1 column 1 (char 0)")) ∧
  snd (fetch_securities_from_treasurydirect Demo.scalar_data Demo.fresh) =
  Raise (LibraryError (LibError "ValueError" "DataFrame constructor not properly called!")).
Proof.
  split_and!.
  - exact (proj1 (fallback_lets_library_errors_through Demo.offline Demo.fresh)
             Demo.unreachable eq_refl).
  - exact (proj1 (proj2 (fallback_lets_library_errors_through Demo.garbled Demo.fresh))
             (Demo.reply 200 "<html>" Demo.not_json) _ eq_refl eq_refl eq_refl).
  - exact (proj2 (proj2 (fallback_lets_library_errors_through Demo.scalar_data Demo.fresh))
             (Demo.reply 200 "<5>" (inr (PyDict [("data", PyInt 5)])))
             [("data", PyInt 5)] (PyInt 5) _ eq_refl eq_refl eq_refl eq_refl eq_refl).
Defined.

(** The fallback source answers an empty array. *)
Lemma fallback_raises_on_a_body_that_is_no_object_witness :
  fetch_securities_from_treasurydirect Demo.arrays Demo.fresh =
  (fallback_started Demo.fresh, Raise (AttributeError (PyList []))).
Proof.
  apply (fallback_raises_on_a_body_that_is_no_object Demo.arrays Demo.fresh
           (Demo.reply 200 "[]" (inr (PyList [])))); [reflexivity..|].
  intros d Hd. discriminate Hd.
Defined.

(** The primary source answers an empty array: the key is not among its
    items. *)
Lemma primary_on_a_body_that_is_no_object_witness :
  snd (fetch_treasury_securities Demo.arrays Demo.fresh) =
  Raise (Exception "No data returned from API. Response: <value>").
Proof.
  apply (proj2 (primary_on_a_body_that_is_no_object Demo.arrays Demo.fresh
                  (Demo.reply 200 "[]" (inr (PyList []))) (PyList [])
                  eq_refl eq_refl eq_refl)).
  apply not_elem_of_nil.
Defined.

(** The primary source answers 404, the fallback two sales. *)
Lemma bad_status_then_fallback_records_witness :
  ∃ st', get_treasury_securities_portfolio Demo.primary_down Demo.fresh =
         (st', Ok (frame_of_records Demo.primary_down Demo.sales)) ∧
         len (frame_of_records Demo.primary_down Demo.sales) = 2 ∧
         sent st' = [primary_request; fallback_request].
Proof.
  apply (bad_status_then_fallback_records Demo.primary_down Demo.fresh
           (Demo.reply 404 "Not Found" Demo.not_json)
           (Demo.reply 200 "<sales>" (inr Demo.sales_body))
           [("meta", PyNone); ("data", PyList (PyDict <$> Demo.sales))] Demo.sales);
    [reflexivity| |reflexivity..].
  intros Hstatus. discriminate Hstatus.
Defined.

(** The primary source answers 404, the fallback 503. *)
Lemma two_bad_statuses_end_the_run_witness :
  ∃ st', script Demo.both_down Demo.fresh =
         (st', Raise (Exception "API request failed: 503")) ∧
         sent st' = [primary_request; fallback_request] ∧
         files st' = ∅.
Proof.
  apply (two_bad_statuses_end_the_run Demo.both_down Demo.fresh
           (Demo.reply 404 "Not Found" Demo.not_json)
           (Demo.reply 503 "Service Unavailable" Demo.not_json)).
  - reflexivity.
  - intros Hstatus. discriminate Hstatus.
  - reflexivity.
  - intros Hstatus. discriminate Hstatus.
Defined.

(** Both sources answer 200 without the key: the empty table is written,
    then refused by [describe]. *)
Lemma script_outcome_witness :
  snd (script Demo.no_envelope Demo.fresh) =
  Raise (LibraryError (LibError "ValueError" "Cannot describe a DataFrame without columns")) ∧
  files (fst (script Demo.no_envelope Demo.fresh)) !! output_file = Some LF.
Proof.
  exact (proj2 (script_outcome Demo.no_envelope Demo.fresh)
           (frame_of_records Demo.no_envelope []) _ eq_refl eq_refl).
Defined.

Lemma missing_key_in_fallback_blanks_the_file_witness :
  files (fst (script Demo.no_envelope Demo.fresh)) = <[output_file := LF]> ∅.
Proof.
  exact (missing_key_in_fallback_blanks_the_file Demo.no_envelope Demo.fresh
           (primary_started (banner Demo.no_envelope Demo.fresh))
           (Exception "No data returned from API. Response: <value>")
           (Demo.reply 200 "<foo>" (inr (PyDict Demo.foo))) Demo.foo
           eq_refl eq_refl eq_refl eq_refl eq_refl).
Defined.

(** The two sales: in the second row the cell under [record_date] is empty
    and the one under [security_desc] is the string of the record. *)
Lemma table_of_records_is_rectangular_witness :
  (∃ row, rows (frame_of_records Demo.primary_down Demo.sales) !! 1%nat = Some row ∧
          row !! 0%nat = Some None) ∧
  (∃ row, rows (frame_of_records Demo.primary_down Demo.sales) !! 1%nat = Some row ∧
          row !! 1%nat = Some (Some (PyStr "Notes"))).
Proof.
  pose proof (proj2 (proj2 (proj2 (table_of_records_is_rectangular Demo.primary_down Demo.sales
                                     (frame_of_records Demo.primary_down Demo.sales) eq_refl))))
    as Hcells.
  split.
  - destruct (Hcells 1%nat 0%nat
                [("security_desc", PyStr "Notes"); ("net_sales_amt", PyStr "12.50")]
                "record_date" eq_refl eq_refl) as (row & Hrow & Hmissing & _).
    exists row. split; [exact Hrow|]. apply Hmissing. intros Hin.
    apply list_elem_of_In in Hin. simpl in Hin.
    destruct Hin as [Heq|[Heq|[]]]; discriminate Heq.
  - destruct (Hcells 1%nat 1%nat
                [("security_desc", PyStr "Notes"); ("net_sales_amt", PyStr "12.50")]
                "security_desc" eq_refl eq_refl) as (row & Hrow & _ & Hstring).
    exists row. split; [exact Hrow|]. exact (proj1 (Hstring "Notes" eq_refl)).
Defined.
